(** * Database bootstrap of the web backend: [backend/apps/web/internal/db.py]

    The module body of [db.py] (lines 12-37) is embedded as a program in a
    small exception-and-state monad.  The state is the part of the world the
    module acts on: the directory entries it reaches through [os], the module
    globals [DB] and [router], and the record of the calls it makes to its
    collaborators ([os], [logging], [playhouse], [peewee_migrate]).  Whether a
    collaborator raises is decided by an environment [Env]; the module itself
    contains no exception handler. *)

From stdpp Require Import gmap strings list fin_maps.
From Stdlib Require Import ZArith.

Open Scope string_scope.

(** ** Values *)

(** Values that [config] hands to the module.  [PyNone] is what an unset
    setting evaluates to. *)
Inductive pyval : Type :=
  | PyNone
  | PyStr (s : string)
  | PyInt (n : Z).

#[global] Instance pyval_eq_dec : EqDecision pyval.
Proof. solve_decision. Defined.

(** Python's [==] on these values. *)
Definition py_eq (a b : pyval) : bool := bool_decide (a = b).

(** The names imported from [config] on line 5 that lines 12-37 use. *)
Record Config : Type := mkConfig {
  DATA_DIR : string;
  DATABASE_URL : pyval;
  DB_ENGINE : pyval;
  DB_HOST : pyval;
  DB_NAME : pyval;
  DB_PASSWORD : pyval;
  DB_PORT : pyval;
  DB_SCHEMA : pyval;
  DB_USER : pyval
}.

(** Exceptions that reach the module.  The three [OSError] subclasses are
    those [os.rename] is documented to raise; [LibraryError] stands for
    whatever a database library raises. *)
Inductive exn : Type :=
  | FileNotFoundError (path : string)
  | FileExistsError (path : string)
  | PermissionError (path : string)
  | LibraryError (msg : string).

#[global] Instance exn_eq_dec : EqDecision exn.
Proof. solve_decision. Defined.

(** The Connection Handle: the object bound to [DB]. *)
Inductive Handle : Type :=
  | PostgresqlExtDatabase_obj (database user password host port schema : pyval)
  | UrlDatabase (cls : string) (url : pyval).

#[global] Instance Handle_eq_dec : EqDecision Handle.
Proof. solve_decision. Defined.

(** [DB.__class__.__name__] *)
Definition class_name (h : Handle) : string :=
  match h with
  | PostgresqlExtDatabase_obj _ _ _ _ _ _ => "PostgresqlExtDatabase"
  | UrlDatabase cls _ => cls
  end.

(** The object bound to [router] on line 35. *)
Record Router : Type := mkRouter {
  router_database : Handle;
  router_migrate_dir : string
}.

(** A module global holding a handle: not yet assigned, [None], or an object. *)
Inductive global : Type :=
  | Undefined
  | NoneVal
  | HandleVal (h : Handle).

(** ** The world *)

(** Regular files by path, with their content.  The module itself changes
    them through [os.rename] only; a database library may write files while
    one of its calls runs (a SQLite database is a file, possibly the very
    [webui.db]), and which ones is for the environment to say. *)
Abbreviation Files := (gmap string string).

(** Calls the module makes to its collaborators.  [Router] is always given
    [logger=log], the one logger of the module, which is left out; what the
    router writes through it is not a call of this module and is not
    recorded. *)
Inductive call : Type :=
  | os_path_exists_call (path : string)
  | os_rename_call (src dst : string)
  | log_info_call (msg : string)
  | PostgresqlExtDatabase_call (database user password host port schema : pyval)
  | connect_call (url : pyval)
  | Router_call (database : Handle) (migrate_dir : string)
  | Router_run_call (r : Router)
  | Database_connect_call (database : Handle) (reuse_if_open : bool).

Inductive outcome : Type :=
  | Returned
  | Raises (e : exn).

(** One call, the files as they were when it was made, and how it ended. *)
Record entry : Type := mkEntry {
  e_call : call;
  e_files : Files;
  e_result : outcome
}.

Record World : Type := mkWorld {
  files : Files;
  trace : list entry;
  DB : global;
  router : option Router
}.

(** The world in which the interpreter starts executing the module. *)
Definition init_world (fs : Files) : World :=
  {| files := fs; trace := []; DB := Undefined; router := None |}.

Inductive Platform : Type := Posix | Windows.

(** What lies outside the module and decides whether a call raises. *)
Record Env : Type := mkEnv {
  platform : Platform;
  (** may the process rename [src] to [dst]? *)
  rename_permitted : string -> string -> bool;
  (** [PostgresqlExtDatabase(...)] *)
  pg_init_error : pyval -> pyval -> pyval -> pyval -> pyval -> pyval -> option exn;
  (** [playhouse.db_url.connect(url)]: the class of the database it builds *)
  url_connect : pyval -> exn + string;
  (** [Router(DB, migrate_dir=..., logger=log)] *)
  router_init_error : Handle -> string -> option exn;
  (** [router.run()] *)
  router_run_error : Router -> option exn;
  (** [DB.connect(reuse_if_open=True)] *)
  db_connect_error : Handle -> bool -> option exn;
  (** the files a call into [playhouse] or [peewee_migrate] leaves, from the
      files it found and the way it ended *)
  library_writes : call -> outcome -> Files -> Files
}.

(** ** The monad *)

Inductive Result (A : Type) : Type :=
  | Ok (a : A) (w : World)
  | Exc (e : exn) (w : World).
Arguments Ok {A} a w.
Arguments Exc {A} e w.

Definition M (A : Type) : Type := World -> Result A.

Definition ret {A} (a : A) : M A := fun w => Ok a w.

Definition bind {A B} (m : M A) (k : A -> M B) : M B :=
  fun w => match m w with
           | Ok a w' => k a w'
           | Exc e w' => Exc e w'
           end.

(** stdpp's monad notations [x ← m; k] and [m ;; k] at [M]. *)
#[global] Instance M_ret : MRet M := @ret.
#[global] Instance M_bind : MBind M := fun A B k m => bind m k.

(** The world a run ends in, normally or not. *)
Definition final {A} (r : Result A) : World :=
  match r with Ok _ w => w | Exc _ w => w end.

Definition completed {A} (r : Result A) : bool :=
  match r with Ok _ _ => true | Exc _ _ => false end.

Definition note (c : call) (o : outcome) (w : World) : World :=
  {| files := files w;
     trace := trace w ++ [mkEntry c (files w) o];
     DB := DB w;
     router := router w |}.

(** A call that leaves the world alone and either returns [a] or raises. *)
Definition invoke {A} (c : call) (r : exn + A) : M A :=
  fun w => match r with
           | inr a => Ok a (note c Returned w)
           | inl e => Exc e (note c (Raises e) w)
           end.

(** A call into a database library: it either returns [a] or raises, and
    may have written files by then. *)
Definition library {A} (env : Env) (c : call) (r : exn + A) : M A :=
  fun w =>
    match r with
    | inr a =>
        Ok a {| files := library_writes env c Returned (files w);
                trace := trace w ++ [mkEntry c (files w) Returned];
                DB := DB w;
                router := router w |}
    | inl e =>
        Exc e {| files := library_writes env c (Raises e) (files w);
                 trace := trace w ++ [mkEntry c (files w) (Raises e)];
                 DB := DB w;
                 router := router w |}
    end.

Definition failing (o : option exn) : exn + unit :=
  match o with Some e => inl e | None => inr tt end.

Definition set_DB (v : global) : M unit :=
  fun w => Ok tt {| files := files w; trace := trace w; DB := v; router := router w |}.

Definition set_router (r : Router) : M unit :=
  fun w => Ok tt {| files := files w; trace := trace w; DB := DB w; router := Some r |}.

(** ** Collaborators *)

(** [os.path.exists(path)]: never raises. *)
Definition os_path_exists (path : string) : M bool :=
  fun w => Ok (match files w !! path with Some _ => true | None => false end)
              (note (os_path_exists_call path) Returned w).

(** When [os.rename(src, dst)] raises: the source is missing, the process
    lacks permission, or (Windows only) the destination exists. *)
Definition os_rename_error (env : Env) (fs : Files) (src dst : string) : option exn :=
  match fs !! src with
  | None => Some (FileNotFoundError src)
  | Some _ =>
      if negb (rename_permitted env src dst) then Some (PermissionError src)
      else if bool_decide (src = dst) then None
      else match platform env, fs !! dst with
           | Windows, Some _ => Some (FileExistsError dst)
           | _, _ => None
           end
  end.

(** The files after a [os.rename(src, dst)] that returns: an existing
    destination file is replaced. *)
Definition renamed (fs : Files) (src dst : string) : Files :=
  match fs !! src with
  | Some content => <[dst := content]> (delete src fs)
  | None => fs
  end.

Definition os_rename (env : Env) (src dst : string) : M unit :=
  fun w =>
    match os_rename_error env (files w) src dst with
    | Some e => Exc e (note (os_rename_call src dst) (Raises e) w)
    | None =>
        Ok tt {| files := renamed (files w) src dst;
                 trace := trace w ++ [mkEntry (os_rename_call src dst) (files w) Returned];
                 DB := DB w;
                 router := router w |}
    end.

(** [log.info(msg)] *)
Definition log_info (msg : string) : M unit :=
  invoke (log_info_call msg) (inr tt).

Definition PostgresqlExtDatabase (env : Env)
    (database user password host port schema : pyval) : M Handle :=
  library env (PostgresqlExtDatabase_call database user password host port schema)
    (match pg_init_error env database user password host port schema with
     | Some e => inl e
     | None => inr (PostgresqlExtDatabase_obj database user password host port schema)
     end).

Definition connect (env : Env) (url : pyval) : M Handle :=
  library env (connect_call url)
    (match url_connect env url with
     | inl e => inl e
     | inr cls => inr (UrlDatabase cls url)
     end).

Definition Router_new (env : Env) (database : Handle) (migrate_dir : string) : M Router :=
  library env (Router_call database migrate_dir)
    (match router_init_error env database migrate_dir with
     | Some e => inl e
     | None => inr (mkRouter database migrate_dir)
     end).

Definition Router_run (env : Env) (r : Router) : M unit :=
  library env (Router_run_call r) (failing (router_run_error env r)).

Definition Database_connect (env : Env) (database : Handle) (reuse_if_open : bool) : M unit :=
  library env (Database_connect_call database reuse_if_open)
    (failing (db_connect_error env database reuse_if_open)).

(** ** The module body *)

Section Bootstrap.

Variable env : Env.
Variable cfg : Config.

(** [f"{DATA_DIR}/ollama.db"] and [f"{DATA_DIR}/webui.db"] *)
Definition ollama_db : string := DATA_DIR cfg +:+ "/ollama.db".
Definition webui_db : string := DATA_DIR cfg +:+ "/webui.db".

(** Lines 12-18. *)
Definition legacy_migration : M unit :=
  found ← os_path_exists ollama_db;
  if (found : bool) then
    os_rename env ollama_db webui_db ;;
    log_info "Database migrated from Ollama-WebUI successfully."
  else
    mret tt.

(** Lines 23-30. *)
Definition postgres_branch : M unit :=
  db ← PostgresqlExtDatabase env (DB_NAME cfg) (DB_USER cfg) (DB_PASSWORD cfg)
          (DB_HOST cfg) (DB_PORT cfg) (DB_SCHEMA cfg);
  set_DB (HandleVal db).

(** Lines 33-37. *)
Definition generic_branch : M unit :=
  db ← connect env (DATABASE_URL cfg);
  set_DB (HandleVal db) ;;
  log_info ("Connected to a " +:+ class_name db +:+ " database.") ;;
  r ← Router_new env db "apps/web/internal/migrations";
  set_router r ;;
  Router_run env r ;;
  Database_connect env db true.

(** Lines 21-37. *)
Definition engine_selection : M unit :=
  set_DB NoneVal ;;
  if py_eq (DB_ENGINE cfg) (PyStr "postgres") then postgres_branch
  else generic_branch.

(** Lines 12-37. *)
Definition module_body : M unit :=
  legacy_migration ;;
  engine_selection.

(** One process start on the files [fs]. *)
Definition bootstrap (fs : Files) : Result unit :=
  module_body (init_world fs).

End Bootstrap.

(** ** Reading a run *)

(** The calls of a run, in the order they were made. *)
Definition calls (w : World) : list call := e_call <$> trace w.

Definition is_rename (c : call) : bool :=
  match c with os_rename_call _ _ => true | _ => false end.

(** The Migration Runner is [Router]; it applies migrations in [run]. *)
Definition is_migration_run (c : call) : bool :=
  match c with Router_run_call _ => true | _ => false end.

Definition is_runner_call (c : call) : bool :=
  match c with Router_call _ _ | Router_run_call _ => true | _ => false end.

(** The two ways a Connection Handle is built. *)
Definition is_construction (c : call) : bool :=
  match c with
  | PostgresqlExtDatabase_call _ _ _ _ _ _ | connect_call _ => true
  | _ => false
  end.

(** How many calls of a run satisfy [p]. *)
Definition count (p : call -> bool) (w : World) : nat :=
  length (List.filter p (calls w)).

Definition returned (e : entry) : bool :=
  match e_result e with Returned => true | Raises _ => false end.

(** The legacy step gets past [os.rename], or never calls it. *)
Definition legacy_step_passes (env : Env) (cfg : Config) (fs : Files) : Prop :=
  is_Some (fs !! ollama_db cfg) ->
  os_rename_error env fs (ollama_db cfg) (webui_db cfg) = None.


(** ** Scenarios *)

(** An environment in which every collaborator does its work; URLs resolve
    to SQLite. *)
Definition obliging (p : Platform) : Env :=
  {| platform := p;
     rename_permitted := fun _ _ => true;
     pg_init_error := fun _ _ _ _ _ _ => None;
     url_connect := fun _ => inr "SqliteDatabase";
     router_init_error := fun _ _ => None;
     router_run_error := fun _ => None;
     db_connect_error := fun _ _ => None;
     library_writes := fun _ _ fs => fs |}.

(** As [obliging Posix], but the migrations fail. *)
Definition broken_migrations : Env :=
  {| platform := Posix;
     rename_permitted := fun _ _ => true;
     pg_init_error := fun _ _ _ _ _ _ => None;
     url_connect := fun _ => inr "SqliteDatabase";
     router_init_error := fun _ _ => None;
     router_run_error := fun _ => Some (LibraryError "migration failed");
     db_connect_error := fun _ _ => None;
     library_writes := fun _ _ fs => fs |}.

(** As [obliging Posix], but the data directory is read-only. *)
Definition read_only : Env :=
  {| platform := Posix;
     rename_permitted := fun _ _ => false;
     pg_init_error := fun _ _ _ _ _ _ => None;
     url_connect := fun _ => inr "SqliteDatabase";
     router_init_error := fun _ _ => None;
     router_run_error := fun _ => None;
     db_connect_error := fun _ _ => None;
     library_writes := fun _ _ fs => fs |}.

(** As [obliging Posix], with migrations that write the database file. *)
Definition migrating : Env :=
  {| platform := Posix;
     rename_permitted := fun _ _ => true;
     pg_init_error := fun _ _ _ _ _ _ => None;
     url_connect := fun _ => inr "SqliteDatabase";
     router_init_error := fun _ _ => None;
     router_run_error := fun _ => None;
     db_connect_error := fun _ _ => None;
     library_writes := fun c _ fs =>
       match c with
       | Router_run_call _ => <[ "/tmp/app/webui.db" := "migrated" ]> fs
       | _ => fs
       end |}.

(** [DB_ENGINE] unset, SQLite under [/tmp/app]. *)
Definition sqlite_cfg : Config :=
  {| DATA_DIR := "/tmp/app";
     DATABASE_URL := PyStr "sqlite:///tmp/app/webui.db";
     DB_ENGINE := PyNone;
     DB_HOST := PyNone;
     DB_NAME := PyNone;
     DB_PASSWORD := PyNone;
     DB_PORT := PyNone;
     DB_SCHEMA := PyNone;
     DB_USER := PyNone |}.

(** [DB_ENGINE="postgres"] with all six parameters. *)
Definition postgres_cfg : Config :=
  {| DATA_DIR := "/tmp/app";
     DATABASE_URL := PyNone;
     DB_ENGINE := PyStr "postgres";
     DB_HOST := PyStr "db.internal";
     DB_NAME := PyStr "webui";
     DB_PASSWORD := PyStr "secret";
     DB_PORT := PyInt 5432;
     DB_SCHEMA := PyStr "public";
     DB_USER := PyStr "admin" |}.

(** As [sqlite_cfg], with the engine spelled with a capital. *)
Definition capital_cfg : Config :=
  {| DATA_DIR := "/tmp/app";
     DATABASE_URL := PyStr "sqlite:///tmp/app/webui.db";
     DB_ENGINE := PyStr "Postgres";
     DB_HOST := PyStr "db.internal";
     DB_NAME := PyStr "webui";
     DB_PASSWORD := PyStr "secret";
     DB_PORT := PyInt 5432;
     DB_SCHEMA := PyStr "public";
     DB_USER := PyStr "admin" |}.

(** As [sqlite_cfg], with the six structured parameters set as well. *)
Definition sqlite_with_parameters_cfg : Config :=
  {| DATA_DIR := "/tmp/app";
     DATABASE_URL := PyStr "sqlite:///tmp/app/webui.db";
     DB_ENGINE := PyNone;
     DB_HOST := PyStr "db.internal";
     DB_NAME := PyStr "webui";
     DB_PASSWORD := PyStr "secret";
     DB_PORT := PyInt 5432;
     DB_SCHEMA := PyStr "public";
     DB_USER := PyStr "admin" |}.

Definition no_files : Files := ∅.

(** Only the legacy file, holding [X]. *)
Definition legacy_only : Files := {[ "/tmp/app/ollama.db" := "X" ]}.

(** The legacy file holding [X] next to a [webui.db] holding [Y]. *)
Definition both_files : Files :=
  <[ "/tmp/app/ollama.db" := "X" ]> {[ "/tmp/app/webui.db" := "Y" ]}.

(** ** Tactics *)

Ltac unfold_module :=
  unfold bootstrap, module_body, engine_selection, legacy_migration,
    postgres_branch, generic_branch, mbind, M_bind, mret, M_ret, bind, ret,
    os_path_exists, os_rename, log_info, PostgresqlExtDatabase, connect,
    Router_new, Router_run, Database_connect, library, invoke, failing, set_DB,
    set_router, note, init_world in *.

(** Follow every path of the module body. *)
Ltac run_module :=
  unfold_module; cbn [files trace DB router] in *;
  repeat (case_match; cbn [files trace DB router final app] in *;
          simplify_eq; try done).

(** ** Comparisons and paths *)

Lemma py_eq_true (a b : pyval) : py_eq a b = true <-> a = b.
Proof. apply bool_decide_eq_true. Qed.

Lemma py_eq_false (a b : pyval) : py_eq a b = false <-> a ≠ b.
Proof. apply bool_decide_eq_false. Qed.

Lemma append_inj_l (p s t : string) : p +:+ s = p +:+ t -> s = t.
Proof.
  induction p as [|a p IH]; cbn; [done|].
  intros H; injection H as H; auto.
Qed.

Lemma ollama_db_ne_webui_db (cfg : Config) : ollama_db cfg ≠ webui_db cfg.
Proof.
  unfold ollama_db, webui_db; intros H.
  apply append_inj_l in H; discriminate.
Qed.

Lemma renamed_lookup_src (fs : Files) (src dst : string) :
  src ≠ dst -> renamed fs src dst !! src = None.
Proof.
  intros Hne; unfold renamed.
  destruct (fs !! src) eqn:E; [|done].
  rewrite lookup_insert_ne by done. apply lookup_delete_eq.
Qed.

(** ** Runs and the legacy path *)




(** ** Four runs *)

Example scenario_sqlite_upgrade :
  let r := bootstrap (obliging Posix) sqlite_cfg legacy_only in
  completed r = true
  /\ files (final r) = {[ "/tmp/app/webui.db" := "X" ]}
  /\ DB (final r)
     = HandleVal (UrlDatabase "SqliteDatabase" (PyStr "sqlite:///tmp/app/webui.db"))
  /\ calls (final r)
     = [ os_path_exists_call "/tmp/app/ollama.db";
         os_rename_call "/tmp/app/ollama.db" "/tmp/app/webui.db";
         log_info_call "Database migrated from Ollama-WebUI successfully.";
         connect_call (PyStr "sqlite:///tmp/app/webui.db");
         log_info_call "Connected to a SqliteDatabase database.";
         Router_call
           (UrlDatabase "SqliteDatabase" (PyStr "sqlite:///tmp/app/webui.db"))
           "apps/web/internal/migrations";
         Router_run_call
           (mkRouter
              (UrlDatabase "SqliteDatabase" (PyStr "sqlite:///tmp/app/webui.db"))
              "apps/web/internal/migrations");
         Database_connect_call
           (UrlDatabase "SqliteDatabase" (PyStr "sqlite:///tmp/app/webui.db")) true ].
Proof. vm_compute. done. Qed.

Example scenario_postgres :
  let r := bootstrap (obliging Posix) postgres_cfg no_files in
  completed r = true
  /\ files (final r) = no_files
  /\ DB (final r)
     = HandleVal (PostgresqlExtDatabase_obj (PyStr "webui") (PyStr "admin")
                    (PyStr "secret") (PyStr "db.internal") (PyInt 5432) (PyStr "public"))
  /\ calls (final r)
     = [ os_path_exists_call "/tmp/app/ollama.db";
         PostgresqlExtDatabase_call (PyStr "webui") (PyStr "admin") (PyStr "secret")
           (PyStr "db.internal") (PyInt 5432) (PyStr "public") ].
Proof. vm_compute. done. Qed.

Example scenario_read_only :
  bootstrap read_only sqlite_cfg legacy_only
  = Exc (PermissionError "/tmp/app/ollama.db")
      {| files := legacy_only;
         trace := [ mkEntry (os_path_exists_call "/tmp/app/ollama.db") legacy_only Returned;
                    mkEntry (os_rename_call "/tmp/app/ollama.db" "/tmp/app/webui.db")
                      legacy_only (Raises (PermissionError "/tmp/app/ollama.db")) ];
         DB := Undefined;
         router := None |}.
Proof. vm_compute. done. Qed.

Example scenario_sqlite_migrated :
  let r := bootstrap migrating sqlite_cfg legacy_only in
  completed r = true
  /\ files (final r) = {[ "/tmp/app/webui.db" := "migrated" ]}
  /\ (e_files <$> trace (final r) !! 6) = Some {[ "/tmp/app/webui.db" := "X" ]}.
Proof. vm_compute. done. Qed.

(** ** The legacy-file step *)

(** C1. In every run that finds a file at [<DATA_DIR>/ollama.db] and whose
    [os.rename] returns, the run starts with the existence check, the rename
    of that file to [<DATA_DIR>/webui.db] and the informational entry
    "Database migrated from Ollama-WebUI successfully."; that entry is made
    on files that hold the file's content at the new path and nothing at the
    old one, and so is any construction of the handle.  In every run that
    finds no such file, whatever its outcome, there is no rename and no such
    log entry, and the handle is built on the files as they were. *)
Theorem C1_legacy_file_renamed_and_logged (env : Env) (cfg : Config) (fs : Files) :
  (forall content : string,
     fs !! ollama_db cfg = Some content ->
     os_rename_error env fs (ollama_db cfg) (webui_db cfg) = None ->
     take 3 (trace (final (bootstrap env cfg fs)))
       = [ mkEntry (os_path_exists_call (ollama_db cfg)) fs Returned;
           mkEntry (os_rename_call (ollama_db cfg) (webui_db cfg)) fs Returned;
           mkEntry (log_info_call "Database migrated from Ollama-WebUI successfully.")
             (<[webui_db cfg := content]> (delete (ollama_db cfg) fs)) Returned ]
     /\ (<[webui_db cfg := content]> (delete (ollama_db cfg) fs) : Files)
          !! ollama_db cfg = None
     /\ (<[webui_db cfg := content]> (delete (ollama_db cfg) fs) : Files)
          !! webui_db cfg = Some content
     /\ (forall (i : nat) (en : entry),
           trace (final (bootstrap env cfg fs)) !! i = Some en ->
           is_construction (e_call en) = true ->
           e_files en = <[webui_db cfg := content]> (delete (ollama_db cfg) fs)))
  /\ (fs !! ollama_db cfg = None ->
      count is_rename (final (bootstrap env cfg fs)) = 0
      /\ (log_info_call "Database migrated from Ollama-WebUI successfully."
            ∉ calls (final (bootstrap env cfg fs)))
      /\ (forall (i : nat) (en : entry),
            trace (final (bootstrap env cfg fs)) !! i = Some en ->
            is_construction (e_call en) = true ->
            e_files en = fs)).
Proof.
  pose proof (ollama_db_ne_webui_db cfg) as Hne.
  split.
  - intros content Hsrc Hok.
    assert (renamed fs (ollama_db cfg) (webui_db cfg)
            = <[webui_db cfg := content]> (delete (ollama_db cfg) fs)) as Hren
      by (unfold renamed; by rewrite Hsrc).
    split_and!.
    + run_module; by rewrite ?Hren.
    + rewrite lookup_insert_ne by done. apply lookup_delete_eq.
    + apply lookup_insert_eq.
    + intros i en Hi Hbuild. rewrite <- Hren. revert Hi.
      run_module; intros Hi.
      all: repeat (destruct i as [|i]; cbn in Hi; simplify_eq; try done).
  - intros Hsrc. unfold count, calls. split_and!.
    + by run_module.
    + run_module.
      all: cbn; rewrite ?not_elem_of_cons; repeat split; try apply not_elem_of_nil.
      all: by intros [=].
    + intros i en Hi Hbuild. revert Hi.
      run_module; intros Hi.
      all: repeat (destruct i as [|i]; cbn in Hi; simplify_eq; try done).
Qed.

Lemma C1_legacy_file_renamed_and_logged_witness :
  take 3 (trace (final (bootstrap migrating sqlite_cfg legacy_only)))
  = [ mkEntry (os_path_exists_call (ollama_db sqlite_cfg)) legacy_only Returned;
      mkEntry (os_rename_call (ollama_db sqlite_cfg) (webui_db sqlite_cfg)) legacy_only
        Returned;
      mkEntry (log_info_call "Database migrated from Ollama-WebUI successfully.")
        (<[webui_db sqlite_cfg := "X"]> (delete (ollama_db sqlite_cfg) legacy_only))
        Returned ]
  /\ count is_rename (final (bootstrap migrating sqlite_cfg no_files)) = 0.
Proof.
  split.
  - refine (proj1 (proj1
      (C1_legacy_file_renamed_and_logged migrating sqlite_cfg legacy_only)
      "X" _ _)); by vm_compute.
  - refine (proj1 (proj2
      (C1_legacy_file_renamed_and_logged migrating sqlite_cfg no_files) _));
      by vm_compute.
Defined.

(** ** The two engine branches *)

(** C2. When [DB_ENGINE == "postgres"], no run, whatever the files and
    whatever its outcome, makes a call to the Migration Runner; a run whose
    legacy step passes builds the handle with [PostgresqlExtDatabase] from
    the six structured parameters and in no other way; and a run that
    completes has bound [DB] to that handle. *)
Theorem C2_postgres_handle_without_migrations (env : Env) (cfg : Config) (fs : Files) :
  DB_ENGINE cfg = PyStr "postgres" ->
  count is_runner_call (final (bootstrap env cfg fs)) = 0
  /\ (legacy_step_passes env cfg fs ->
      List.filter is_construction (calls (final (bootstrap env cfg fs)))
        = [ PostgresqlExtDatabase_call (DB_NAME cfg) (DB_USER cfg) (DB_PASSWORD cfg)
              (DB_HOST cfg) (DB_PORT cfg) (DB_SCHEMA cfg) ])
  /\ (forall w, bootstrap env cfg fs = Ok tt w ->
      DB w = HandleVal (PostgresqlExtDatabase_obj (DB_NAME cfg) (DB_USER cfg)
                          (DB_PASSWORD cfg) (DB_HOST cfg) (DB_PORT cfg) (DB_SCHEMA cfg))).
Proof.
  intros Hengine. unfold count, calls, legacy_step_passes.
  split_and!; [| intros Hpass | intros w Hrun].
  all: unfold_module; rewrite Hengine in *; cbn [py_eq bool_decide] in *.
  all: run_module.
  by specialize (Hpass ltac:(eauto)).
Qed.

Lemma C2_postgres_handle_without_migrations_witness :
  count is_runner_call (final (bootstrap (obliging Posix) postgres_cfg legacy_only)) = 0
  /\ DB (final (bootstrap (obliging Posix) postgres_cfg legacy_only))
     = HandleVal (PostgresqlExtDatabase_obj (PyStr "webui") (PyStr "admin")
                    (PyStr "secret") (PyStr "db.internal") (PyInt 5432) (PyStr "public")).
Proof.
  split.
  - exact (proj1 (C2_postgres_handle_without_migrations
      (obliging Posix) postgres_cfg legacy_only eq_refl)).
  - refine (proj2 (proj2 (C2_postgres_handle_without_migrations
      (obliging Posix) postgres_cfg legacy_only eq_refl)) _ _); by vm_compute.
Defined.

(** C3. When [DB_ENGINE] is anything but ["postgres"], no run invokes
    [router.run()] more than once, and a run that completes has: built the
    handle with [connect(DATABASE_URL)], bound [DB] to it, and then made, in
    this order and after the legacy step, the calls [connect], [log.info],
    [Router], [router.run()] (the one invocation, which returned) and
    [DB.connect(reuse_if_open=True)]. *)
Theorem C3_generic_handle_after_one_migration (env : Env) (cfg : Config) (fs : Files) :
  DB_ENGINE cfg ≠ PyStr "postgres" ->
  count is_migration_run (final (bootstrap env cfg fs)) <= 1
  /\ (forall w, bootstrap env cfg fs = Ok tt w ->
      exists cls : string,
        url_connect env (DATABASE_URL cfg) = inr cls
        /\ DB w = HandleVal (UrlDatabase cls (DATABASE_URL cfg))
        /\ count is_migration_run w = 1
        /\ Forall (fun e => returned e = true) (trace w)
        /\ calls w
           = (calls (final (legacy_migration env cfg (init_world fs)))
             ++ [ connect_call (DATABASE_URL cfg);
                  log_info_call
                    ("Connected to a " +:+ cls +:+ " database.");
                  Router_call (UrlDatabase cls (DATABASE_URL cfg))
                    "apps/web/internal/migrations";
                  Router_run_call
                    (mkRouter (UrlDatabase cls (DATABASE_URL cfg))
                       "apps/web/internal/migrations");
                  Database_connect_call (UrlDatabase cls (DATABASE_URL cfg)) true ])%list
        /\ count is_runner_call (final (legacy_migration env cfg (init_world fs))) = 0).
Proof.
  intros Hengine. unfold count, calls.
  assert (py_eq (DB_ENGINE cfg) (PyStr "postgres") = false) as Hsel
    by (by apply py_eq_false).
  split; [| intros w Hrun].
  all: unfold_module; rewrite Hsel in *.
  all: run_module; cbn; try lia.
  all: eexists; split_and!; try done.
  all: repeat constructor.
Qed.

Lemma C3_generic_handle_after_one_migration_witness :
  count is_migration_run (final (bootstrap (obliging Posix) sqlite_cfg legacy_only)) = 1.
Proof.
  assert (DB_ENGINE sqlite_cfg ≠ PyStr "postgres") as Hengine by discriminate.
  assert (bootstrap (obliging Posix) sqlite_cfg legacy_only
          = Ok tt (final (bootstrap (obliging Posix) sqlite_cfg legacy_only))) as Hrun
    by (by vm_compute).
  destruct (proj2 (C3_generic_handle_after_one_migration
    (obliging Posix) sqlite_cfg legacy_only Hengine) _ Hrun) as (cls & _ & _ & Hone & _).
  exact Hone.
Defined.

(** ** When the rename fails, and when the destination exists *)

(** C4, as stated, fails.  On POSIX, with [X] in [ollama.db] and [Y] in
    [webui.db], the run completes, every call returns, and no file holds [Y]
    any more: the rename replaced it. *)
Lemma C4_counterexample_destination_replaced :
  both_files !! webui_db sqlite_cfg = Some "Y"
  /\ completed (bootstrap (obliging Posix) sqlite_cfg both_files) = true
  /\ Forall (fun e => returned e = true)
       (trace (final (bootstrap (obliging Posix) sqlite_cfg both_files)))
  /\ files (final (bootstrap (obliging Posix) sqlite_cfg both_files))
     = {[ "/tmp/app/webui.db" := "X" ]}
  /\ ~ (exists path : string,
         files (final (bootstrap (obliging Posix) sqlite_cfg both_files)) !! path
         = Some "Y").
Proof.
  assert (files (final (bootstrap (obliging Posix) sqlite_cfg both_files))
          = {[ "/tmp/app/webui.db" := "X" ]}) as Hfiles by (by vm_compute).
  split_and!; [by vm_compute | by vm_compute | | done |].
  - vm_compute. repeat constructor.
  - rewrite Hfiles. intros [path Hpath].
    by apply lookup_singleton_Some in Hpath as [_ [=]].
Qed.

(** C4, amended.  If [os.rename] raises, the bootstrap ends with that
    exception right there: the files are untouched, nothing is logged, [DB]
    is not even assigned.  A file already at [<DATA_DIR>/webui.db] is kept
    only where [os.rename] refuses an existing destination (Windows: the run
    ends with [FileExistsError]); where [os.rename] replaces an existing
    destination (POSIX), the rename returns and the next call of the run,
    the informational entry, is made on files whose [webui.db] holds the
    legacy file's content. *)
Theorem C4_rename_failure_fatal_destination_unguarded
    (env : Env) (cfg : Config) (fs : Files) (legacy kept : string) :
  fs !! ollama_db cfg = Some legacy ->
  (forall e : exn,
     os_rename_error env fs (ollama_db cfg) (webui_db cfg) = Some e ->
     bootstrap env cfg fs
     = Exc e {| files := fs;
                trace := [ mkEntry (os_path_exists_call (ollama_db cfg)) fs Returned;
                           mkEntry (os_rename_call (ollama_db cfg) (webui_db cfg)) fs
                             (Raises e) ];
                DB := Undefined;
                router := None |})
  /\ (fs !! webui_db cfg = Some kept ->
      rename_permitted env (ollama_db cfg) (webui_db cfg) = true ->
      match platform env with
      | Windows =>
          os_rename_error env fs (ollama_db cfg) (webui_db cfg)
          = Some (FileExistsError (webui_db cfg))
          /\ files (final (bootstrap env cfg fs)) = fs
      | Posix =>
          os_rename_error env fs (ollama_db cfg) (webui_db cfg) = None
          /\ trace (final (bootstrap env cfg fs)) !! 1
             = Some (mkEntry (os_rename_call (ollama_db cfg) (webui_db cfg)) fs Returned)
          /\ trace (final (bootstrap env cfg fs)) !! 2
             = Some (mkEntry
                       (log_info_call "Database migrated from Ollama-WebUI successfully.")
                       (<[webui_db cfg := legacy]> (delete (ollama_db cfg) fs)) Returned)
          /\ (<[webui_db cfg := legacy]> (delete (ollama_db cfg) fs) : Files)
               !! webui_db cfg = Some legacy
          /\ (<[webui_db cfg := legacy]> (delete (ollama_db cfg) fs) : Files)
               !! ollama_db cfg = None
      end).
Proof.
  intros Hsrc.
  pose proof (ollama_db_ne_webui_db cfg) as Hne.
  split.
  - intros e Hfail. by run_module.
  - intros Hdst Hperm.
    assert (os_rename_error env fs (ollama_db cfg) (webui_db cfg)
            = match platform env with
              | Windows => Some (FileExistsError (webui_db cfg))
              | Posix => None
              end) as Herr.
    { unfold os_rename_error.
      rewrite Hsrc, Hperm, Hdst, bool_decide_eq_false_2 by done.
      by destruct (platform env). }
    assert (renamed fs (ollama_db cfg) (webui_db cfg)
            = <[webui_db cfg := legacy]> (delete (ollama_db cfg) fs)) as Hren
      by (unfold renamed; by rewrite Hsrc).
    destruct (platform env); rewrite Herr.
    + split_and!; [done | | | apply lookup_insert_eq |].
      * by run_module.
      * run_module; by rewrite ?Hren.
      * rewrite lookup_insert_ne by done. apply lookup_delete_eq.
    + split; [done | by run_module].
Qed.

Lemma C4_rename_failure_fatal_destination_unguarded_witness :
  files (final (bootstrap (obliging Windows) sqlite_cfg both_files)) = both_files
  /\ trace (final (bootstrap migrating sqlite_cfg both_files)) !! 2
     = Some (mkEntry
               (log_info_call "Database migrated from Ollama-WebUI successfully.")
               (<[webui_db sqlite_cfg := "X"]> (delete (ollama_db sqlite_cfg) both_files))
               Returned).
Proof.
  split.
  - refine (proj2 (proj2 (C4_rename_failure_fatal_destination_unguarded
      (obliging Windows) sqlite_cfg both_files "X" "Y" _) _ _)); by vm_compute.
  - refine (proj1 (proj2 (proj2 (proj2 (C4_rename_failure_fatal_destination_unguarded
      migrating sqlite_cfg both_files "X" "Y" _) _ _)))); by vm_compute.
Defined.

(** ** Failures *)

(** C5. The module has no handler: in every run, a call that raises is the
    last call of the run and the run ends with exactly that exception; a run
    that ends with an exception got it from its last call; and a run that
    completes had every call return, has [DB] bound to a handle and, on the
    generic path, has run the migrations once and ended on
    [DB.connect(reuse_if_open=True)]. *)
Theorem C5_failures_propagate (env : Env) (cfg : Config) (fs : Files) :
  (forall (i : nat) (en : entry) (e : exn),
     trace (final (bootstrap env cfg fs)) !! i = Some en ->
     e_result en = Raises e ->
     bootstrap env cfg fs = Exc e (final (bootstrap env cfg fs))
     /\ length (trace (final (bootstrap env cfg fs))) = S i)
  /\ (forall (e : exn) (w : World),
        bootstrap env cfg fs = Exc e w ->
        exists en : entry, last (trace w) = Some en /\ e_result en = Raises e)
  /\ (forall w : World,
        bootstrap env cfg fs = Ok tt w ->
        Forall (fun en => returned en = true) (trace w)
        /\ exists h : Handle,
             DB w = HandleVal h
             /\ (DB_ENGINE cfg ≠ PyStr "postgres" ->
                 count is_migration_run w = 1
                 /\ router w = Some (mkRouter h "apps/web/internal/migrations")
                 /\ last (calls w) = Some (Database_connect_call h true))).
Proof.
  unfold count, calls. split_and!.
  - intros i en e Hi Hraise. revert Hi.
    run_module; intros Hi.
    all: repeat (destruct i as [|i]; cbn in Hi; simplify_eq; try done).
    all: cbn in Hraise; by simplify_eq.
  - intros e w Hrun. run_module; eexists; by split.
  - intros w Hrun. run_module.
    all: split; [repeat constructor | eexists; split; [done|]].
    all: intros Hengine; try done.
    all: exfalso; apply Hengine.
    all: unfold py_eq in *; by case_bool_decide.
Qed.

Lemma C5_failures_propagate_witness :
  bootstrap broken_migrations sqlite_cfg legacy_only
  = Exc (LibraryError "migration failed")
      (final (bootstrap broken_migrations sqlite_cfg legacy_only)).
Proof.
  refine (proj1 (proj1 (C5_failures_propagate broken_migrations sqlite_cfg legacy_only)
    6 (mkEntry
         (Router_run_call
            (mkRouter (UrlDatabase "SqliteDatabase" (PyStr "sqlite:///tmp/app/webui.db"))
               "apps/web/internal/migrations"))
         {[ "/tmp/app/webui.db" := "X" ]}
         (Raises (LibraryError "migration failed")))
    (LibraryError "migration failed") _ _)).
  - by vm_compute.
  - reflexivity.
Defined.

(** ** Starting again *)




(** ** Order *)

(** C7. In every run, on either engine path, whenever a Connection Handle is
    being built ([PostgresqlExtDatabase(...)] or [connect(...)]) there is no
    file at the legacy path at that moment; and if the run started with one,
    the rename that returned comes earlier in the run. *)
Theorem C7_rename_precedes_construction
    (env : Env) (cfg : Config) (fs : Files) (i : nat) (en : entry) :
  trace (final (bootstrap env cfg fs)) !! i = Some en ->
  is_construction (e_call en) = true ->
  e_files en !! ollama_db cfg = None
  /\ (is_Some (fs !! ollama_db cfg) ->
      exists j : nat,
        j < i
        /\ trace (final (bootstrap env cfg fs)) !! j
           = Some (mkEntry (os_rename_call (ollama_db cfg) (webui_db cfg)) fs Returned)).
Proof.
  intros Hi Hbuild.
  pose proof (renamed_lookup_src fs _ _ (ollama_db_ne_webui_db cfg)) as Hold.
  revert Hi. run_module; intros Hi.
  all: repeat (destruct i as [|i]; cbn in Hi; simplify_eq; try done).
  all: cbn in Hbuild; try done.
  all: split; [done|]; intros Hsome; try (by destruct Hsome).
  all: exists 1; split; [lia | done].
Qed.

Lemma C7_rename_precedes_construction_witness :
  trace (final (bootstrap (obliging Posix) sqlite_cfg legacy_only)) !! 3
  = Some (mkEntry (connect_call (PyStr "sqlite:///tmp/app/webui.db"))
            {[ "/tmp/app/webui.db" := "X" ]} Returned)
  /\ ({[ "/tmp/app/webui.db" := "X" ]} : Files) !! ollama_db sqlite_cfg = None.
Proof.
  assert (trace (final (bootstrap (obliging Posix) sqlite_cfg legacy_only)) !! 3
          = Some (mkEntry (connect_call (PyStr "sqlite:///tmp/app/webui.db"))
                    {[ "/tmp/app/webui.db" := "X" ]} Returned)) as Hentry
    by (by vm_compute).
  split; [exact Hentry|].
  exact (proj1 (C7_rename_precedes_construction (obliging Posix) sqlite_cfg legacy_only 3
    _ Hentry eq_refl)).
Defined.

(** ** Which branch *)

(** C8. In every run whose legacy step passes, the handle is built by
    [PostgresqlExtDatabase] exactly when [DB_ENGINE] is the string
    ["postgres"], and by [connect(DATABASE_URL)] exactly when it is any
    other value; ["Postgres"] is such another value. *)
Theorem C8_engine_selected_by_exact_equality
    (env : Env) (cfg : Config) (fs : Files) :
  legacy_step_passes env cfg fs ->
  (DB_ENGINE cfg = PyStr "postgres" <->
   List.filter is_construction (calls (final (bootstrap env cfg fs)))
   = [ PostgresqlExtDatabase_call (DB_NAME cfg) (DB_USER cfg) (DB_PASSWORD cfg)
         (DB_HOST cfg) (DB_PORT cfg) (DB_SCHEMA cfg) ])
  /\ (DB_ENGINE cfg ≠ PyStr "postgres" <->
      List.filter is_construction (calls (final (bootstrap env cfg fs)))
      = [ connect_call (DATABASE_URL cfg) ])
  /\ (DB_ENGINE cfg = PyStr "Postgres" ->
      List.filter is_construction (calls (final (bootstrap env cfg fs)))
      = [ connect_call (DATABASE_URL cfg) ]).
Proof.
  intros Hpass. unfold legacy_step_passes, calls in *.
  assert (DB_ENGINE cfg = PyStr "Postgres" -> DB_ENGINE cfg ≠ PyStr "postgres")
    as Hcapital by (by intros -> [=]).
  assert (List.filter is_construction
            (e_call <$> trace (final (bootstrap env cfg fs)))
          = if py_eq (DB_ENGINE cfg) (PyStr "postgres")
            then [ PostgresqlExtDatabase_call (DB_NAME cfg) (DB_USER cfg)
                     (DB_PASSWORD cfg) (DB_HOST cfg) (DB_PORT cfg) (DB_SCHEMA cfg) ]
            else [ connect_call (DATABASE_URL cfg) ]) as ->.
  { run_module; by specialize (Hpass ltac:(eauto)). }
  unfold py_eq. case_bool_decide; naive_solver.
Qed.

Lemma C8_engine_selected_by_exact_equality_witness :
  List.filter is_construction
    (calls (final (bootstrap (obliging Posix) capital_cfg legacy_only)))
  = [ connect_call (PyStr "sqlite:///tmp/app/webui.db") ].
Proof.
  refine (proj2 (proj2 (C8_engine_selected_by_exact_equality
    (obliging Posix) capital_cfg legacy_only _)) _).
  - intros _. by vm_compute.
  - reflexivity.
Defined.

(** C9. Two configurations that agree on [DATA_DIR], on [DB_ENGINE] and on
    what the taken branch passes on give the same run, call for call: with
    ["postgres"], whatever the two [DATABASE_URL]s are; with any other
    engine, whatever the two sets of structured parameters are. *)
Theorem C9_untaken_branch_configuration_unused
    (env : Env) (cfg cfg' : Config) (fs : Files) :
  DATA_DIR cfg' = DATA_DIR cfg ->
  DB_ENGINE cfg' = DB_ENGINE cfg ->
  (DB_ENGINE cfg = PyStr "postgres" ->
   DB_NAME cfg' = DB_NAME cfg -> DB_USER cfg' = DB_USER cfg ->
   DB_PASSWORD cfg' = DB_PASSWORD cfg -> DB_HOST cfg' = DB_HOST cfg ->
   DB_PORT cfg' = DB_PORT cfg -> DB_SCHEMA cfg' = DB_SCHEMA cfg ->
   bootstrap env cfg' fs = bootstrap env cfg fs)
  /\ (DB_ENGINE cfg ≠ PyStr "postgres" ->
      DATABASE_URL cfg' = DATABASE_URL cfg ->
      bootstrap env cfg' fs = bootstrap env cfg fs).
Proof.
  intros Hdir Hengine.
  assert (ollama_db cfg' = ollama_db cfg) as Hold
    by (unfold ollama_db; by rewrite Hdir).
  assert (webui_db cfg' = webui_db cfg) as Hnew
    by (unfold webui_db; by rewrite Hdir).
  split.
  - intros Hpg Hname Huser Hpassword Hhost Hport Hschema.
    unfold_module.
    rewrite Hold, Hnew, Hengine, Hpg, Hname, Huser, Hpassword, Hhost, Hport, Hschema.
    reflexivity.
  - intros Hother Hurl.
    assert (py_eq (DB_ENGINE cfg) (PyStr "postgres") = false) as Hsel
      by (unfold py_eq; by apply bool_decide_eq_false).
    unfold_module.
    rewrite Hold, Hnew, Hengine, Hsel, Hurl.
    reflexivity.
Qed.

Lemma C9_untaken_branch_configuration_unused_witness :
  bootstrap (obliging Posix) sqlite_with_parameters_cfg legacy_only
  = bootstrap (obliging Posix) sqlite_cfg legacy_only.
Proof.
  refine (proj2 (C9_untaken_branch_configuration_unused
    (obliging Posix) sqlite_cfg sqlite_with_parameters_cfg legacy_only _ _) _ _);
    first [reflexivity | discriminate].
Defined.

(** ** The published handle *)

(** C10. A run that completes, on either branch, leaves [DB] bound to the
    handle its branch built: the [PostgresqlExtDatabase] of the six
    parameters when [DB_ENGINE == "postgres"], the database that
    [connect(DATABASE_URL)] returned otherwise; it is neither unassigned nor
    [None]. *)
Theorem C10_completed_run_binds_DB
    (env : Env) (cfg : Config) (fs : Files) (w : World) :
  bootstrap env cfg fs = Ok tt w ->
  DB w ≠ Undefined /\ DB w ≠ NoneVal
  /\ exists h : Handle,
       DB w = HandleVal h
       /\ ((DB_ENGINE cfg = PyStr "postgres"
            /\ h = PostgresqlExtDatabase_obj (DB_NAME cfg) (DB_USER cfg)
                     (DB_PASSWORD cfg) (DB_HOST cfg) (DB_PORT cfg) (DB_SCHEMA cfg))
           \/ (DB_ENGINE cfg ≠ PyStr "postgres"
               /\ exists cls : string,
                    url_connect env (DATABASE_URL cfg) = inr cls
                    /\ h = UrlDatabase cls (DATABASE_URL cfg))).
Proof.
  intros Hrun.
  run_module; split_and!; try done.
  all: eexists; split; [done|].
  all: match goal with
       | H : py_eq _ _ = true |- _ => apply py_eq_true in H; by left
       | H : py_eq _ _ = false |- _ => apply py_eq_false in H; right; by eauto
       end.
Qed.

Lemma C10_completed_run_binds_DB_witness :
  DB (final (bootstrap (obliging Posix) postgres_cfg no_files)) ≠ NoneVal.
Proof.
  refine (proj1 (proj2 (C10_completed_run_binds_DB (obliging Posix) postgres_cfg no_files
    (final (bootstrap (obliging Posix) postgres_cfg no_files)) _))).
  by vm_compute.
Defined.

(** * Further properties of the module *)

(** ** When start-up succeeds *)

(** X1. The module body completes exactly when none of the calls on its way
    raises: the legacy step passes and, with ["postgres"], the constructor
    returns; with any other engine, [connect] returns a database and
    [Router], [router.run()] and [DB.connect] all return for it. *)
Theorem X1_completes_iff_every_call_returns (env : Env) (cfg : Config) (fs : Files) :
  completed (bootstrap env cfg fs) = true
  <-> legacy_step_passes env cfg fs
      /\ (DB_ENGINE cfg = PyStr "postgres" ->
          pg_init_error env (DB_NAME cfg) (DB_USER cfg) (DB_PASSWORD cfg)
            (DB_HOST cfg) (DB_PORT cfg) (DB_SCHEMA cfg) = None)
      /\ (DB_ENGINE cfg ≠ PyStr "postgres" ->
          exists cls : string,
            url_connect env (DATABASE_URL cfg) = inr cls
            /\ router_init_error env (UrlDatabase cls (DATABASE_URL cfg))
                 "apps/web/internal/migrations" = None
            /\ router_run_error env
                 (mkRouter (UrlDatabase cls (DATABASE_URL cfg))
                    "apps/web/internal/migrations") = None
            /\ db_connect_error env (UrlDatabase cls (DATABASE_URL cfg)) true = None).
Proof.
  unfold legacy_step_passes. split.
  - intros Hdone. run_module.
    all: repeat match goal with
         | H : py_eq _ _ = true |- _ => apply py_eq_true in H
         | H : py_eq _ _ = false |- _ => apply py_eq_false in H
         end.
    all: split_and!; try done; try (by intros []); eauto.
  - intros (Hpass & Hpg & Hurl).
    destruct (decide (DB_ENGINE cfg = PyStr "postgres")) as [Heq|Hne].
    + specialize (Hpg Heq). apply py_eq_true in Heq.
      run_module; by specialize (Hpass ltac:(eauto)).
    + destruct (Hurl Hne) as (cls & Hc & Hi & Hr & Hd). apply py_eq_false in Hne.
      run_module; by specialize (Hpass ltac:(eauto)).
Qed.

(** ** Where a failed run leaves the module *)

(** X3. A run that ends with an exception got it from [os.rename], from one
    of the two constructors, from [Router], from [router.run()] or from
    [DB.connect], never from [os.path.exists] or [log.info], and the call
    tells what the module holds: after [os.rename] nothing is assigned and
    the files are as before; after a constructor [DB] is [None]; after
    [Router] [DB] is the handle but [router] is unassigned; after
    [router.run()] or [DB.connect] both are assigned, [DB] to the router's
    database, although the migrations or the connection failed. *)
Theorem X3_state_after_failure
    (env : Env) (cfg : Config) (fs : Files) (e : exn) (w : World) :
  bootstrap env cfg fs = Exc e w ->
  exists en : entry,
    last (trace w) = Some en
    /\ e_result en = Raises e
    /\ match e_call en with
       | os_rename_call src dst =>
           src = ollama_db cfg /\ dst = webui_db cfg
           /\ DB w = Undefined /\ router w = None /\ files w = fs
       | PostgresqlExtDatabase_call _ _ _ _ _ _ =>
           DB_ENGINE cfg = PyStr "postgres" /\ DB w = NoneVal /\ router w = None
       | connect_call _ =>
           DB_ENGINE cfg ≠ PyStr "postgres" /\ DB w = NoneVal /\ router w = None
       | Router_call database _ =>
           DB w = HandleVal database /\ router w = None
       | Router_run_call r =>
           DB w = HandleVal (router_database r) /\ router w = Some r
       | Database_connect_call database _ =>
           DB w = HandleVal database
           /\ router w = Some (mkRouter database "apps/web/internal/migrations")
       | os_path_exists_call _ | log_info_call _ => False
       end.
Proof.
  intros Hrun. run_module.
  all: repeat match goal with
       | H : py_eq _ _ = true |- _ => apply py_eq_true in H
       | H : py_eq _ _ = false |- _ => apply py_eq_false in H
       end.
  all: eexists; split_and!; try done.
Qed.

Lemma X3_state_after_failure_witness :
  exists en : entry,
    last (trace (final (bootstrap broken_migrations sqlite_cfg legacy_only))) = Some en
    /\ e_result en = Raises (LibraryError "migration failed")
    /\ match e_call en with
       | os_rename_call src dst =>
           src = ollama_db sqlite_cfg /\ dst = webui_db sqlite_cfg
           /\ DB (final (bootstrap broken_migrations sqlite_cfg legacy_only)) = Undefined
           /\ router (final (bootstrap broken_migrations sqlite_cfg legacy_only)) = None
           /\ files (final (bootstrap broken_migrations sqlite_cfg legacy_only))
              = legacy_only
       | PostgresqlExtDatabase_call _ _ _ _ _ _ =>
           DB_ENGINE sqlite_cfg = PyStr "postgres"
           /\ DB (final (bootstrap broken_migrations sqlite_cfg legacy_only)) = NoneVal
           /\ router (final (bootstrap broken_migrations sqlite_cfg legacy_only)) = None
       | connect_call _ =>
           DB_ENGINE sqlite_cfg ≠ PyStr "postgres"
           /\ DB (final (bootstrap broken_migrations sqlite_cfg legacy_only)) = NoneVal
           /\ router (final (bootstrap broken_migrations sqlite_cfg legacy_only)) = None
       | Router_call database _ =>
           DB (final (bootstrap broken_migrations sqlite_cfg legacy_only))
           = HandleVal database
           /\ router (final (bootstrap broken_migrations sqlite_cfg legacy_only)) = None
       | Router_run_call r =>
           DB (final (bootstrap broken_migrations sqlite_cfg legacy_only))
           = HandleVal (router_database r)
           /\ router (final (bootstrap broken_migrations sqlite_cfg legacy_only)) = Some r
       | Database_connect_call database _ =>
           DB (final (bootstrap broken_migrations sqlite_cfg legacy_only))
           = HandleVal database
           /\ router (final (bootstrap broken_migrations sqlite_cfg legacy_only))
              = Some (mkRouter database "apps/web/internal/migrations")
       | os_path_exists_call _ | log_info_call _ => False
       end.
Proof.
  apply (X3_state_after_failure broken_migrations sqlite_cfg legacy_only
           (LibraryError "migration failed")).
  by vm_compute.
Defined.

(** ** The router and the handle *)

(** X4. In every run, whatever its outcome: once [router] is assigned, it
    was built on the very handle [DB] is bound to, that handle came from
    [connect(DATABASE_URL)], its directory is
    ["apps/web/internal/migrations"], and the engine is not ["postgres"]. *)
Theorem X4_router_shares_the_handle
    (env : Env) (cfg : Config) (fs : Files) (r : Router) :
  router (final (bootstrap env cfg fs)) = Some r ->
  DB (final (bootstrap env cfg fs)) = HandleVal (router_database r)
  /\ router_migrate_dir r = "apps/web/internal/migrations"
  /\ DB_ENGINE cfg ≠ PyStr "postgres"
  /\ exists cls : string,
       url_connect env (DATABASE_URL cfg) = inr cls
       /\ router_database r = UrlDatabase cls (DATABASE_URL cfg).
Proof.
  intros Hrouter. run_module.
  all: repeat match goal with
       | H : py_eq _ _ = false |- _ => apply py_eq_false in H
       end.
  all: split_and!; eauto.
Qed.

Lemma X4_router_shares_the_handle_witness :
  DB (final (bootstrap broken_migrations sqlite_cfg legacy_only))
  = HandleVal (UrlDatabase "SqliteDatabase" (PyStr "sqlite:///tmp/app/webui.db")).
Proof.
  refine (proj1 (X4_router_shares_the_handle broken_migrations sqlite_cfg legacy_only
    (mkRouter (UrlDatabase "SqliteDatabase" (PyStr "sqlite:///tmp/app/webui.db"))
       "apps/web/internal/migrations") _)).
  by vm_compute.
Defined.

(** ** One call after another *)

(** X5. In every run the first call is the existence check of
    [<DATA_DIR>/ollama.db], and every later call comes right after the call
    the module text puts before it, which returned: [os.rename] after the
    check that found the file; the migration entry after the rename; a
    constructor after the check that found nothing or after the migration
    entry; the connection entry after [connect]; [Router] after that entry,
    on the handle it names; [router.run()] after [Router] built that very
    router; [DB.connect], always with [reuse_if_open=True], after
    [router.run()] on a router of the same handle. *)
Theorem X5_each_call_follows_its_predecessor
    (env : Env) (cfg : Config) (fs : Files) (i : nat) (prev en : entry) :
  trace (final (bootstrap env cfg fs)) !! i = Some prev ->
  trace (final (bootstrap env cfg fs)) !! S i = Some en ->
  (e_call <$> trace (final (bootstrap env cfg fs)) !! 0)
    = Some (os_path_exists_call (ollama_db cfg))
  /\ e_result prev = Returned
  /\ match e_call en with
     | os_path_exists_call _ => False
     | os_rename_call src dst =>
         src = ollama_db cfg /\ dst = webui_db cfg
         /\ e_call prev = os_path_exists_call src /\ is_Some (e_files prev !! src)
     | log_info_call msg =>
         (msg = "Database migrated from Ollama-WebUI successfully."
          /\ e_call prev = os_rename_call (ollama_db cfg) (webui_db cfg))
         \/ (exists cls : string,
               url_connect env (DATABASE_URL cfg) = inr cls
               /\ msg = "Connected to a " +:+ cls +:+ " database."
               /\ e_call prev = connect_call (DATABASE_URL cfg))
     | PostgresqlExtDatabase_call _ _ _ _ _ _ | connect_call _ =>
         (e_call prev = os_path_exists_call (ollama_db cfg)
          /\ e_files prev !! ollama_db cfg = None)
         \/ e_call prev
            = log_info_call "Database migrated from Ollama-WebUI successfully."
     | Router_call database migrate_dir =>
         migrate_dir = "apps/web/internal/migrations"
         /\ e_call prev
            = log_info_call ("Connected to a " +:+ class_name database +:+ " database.")
     | Router_run_call r =>
         e_call prev = Router_call (router_database r) (router_migrate_dir r)
     | Database_connect_call database reuse_if_open =>
         reuse_if_open = true
         /\ e_call prev
            = Router_run_call (mkRouter database "apps/web/internal/migrations")
     end.
Proof.
  intros Hprev Hen. revert Hprev Hen.
  run_module; intros Hprev Hen.
  all: repeat (destruct i as [|i]; cbn in Hprev, Hen; simplify_eq; try done).
  all: cbn [e_call e_result e_files] in *; simplify_eq.
  all: split_and!; try done.
  all: try (by left); try (by right); try (by left; split; eauto).
  all: right; eexists; by split_and!.
Qed.

Lemma X5_each_call_follows_its_predecessor_witness :
  e_call <$> trace (final (bootstrap (obliging Posix) sqlite_cfg legacy_only)) !! 6
  = Some (Router_run_call
            (mkRouter (UrlDatabase "SqliteDatabase" (PyStr "sqlite:///tmp/app/webui.db"))
               "apps/web/internal/migrations")).
Proof.
  assert (exists prev, trace (final (bootstrap (obliging Posix) sqlite_cfg legacy_only)) !! 6
                       = Some prev) as [prev Hprev] by (eexists; by vm_compute).
  assert (exists en, trace (final (bootstrap (obliging Posix) sqlite_cfg legacy_only)) !! 7
                     = Some en
                     /\ e_call en
                        = Database_connect_call
                            (UrlDatabase "SqliteDatabase"
                               (PyStr "sqlite:///tmp/app/webui.db")) true)
    as (en & Hen & Hcall) by (eexists; by vm_compute).
  pose proof (X5_each_call_follows_its_predecessor
                (obliging Posix) sqlite_cfg legacy_only 6 prev en Hprev Hen)
    as (_ & _ & Horder).
  rewrite Hcall in Horder. destruct Horder as [_ Hrun].
  rewrite Hprev. cbn. by rewrite Hrun.
Defined.

(** ** The guard of the rename *)

Lemma os_rename_error_of_existing
    (env : Env) (fs : Files) (src dst content path : string) :
  fs !! src = Some content ->
  os_rename_error env fs src dst ≠ Some (FileNotFoundError path).
Proof.
  intros Hsrc. unfold os_rename_error. rewrite Hsrc.
  repeat case_match; congruence.
Qed.

(** X6. Every [os.rename] a run makes is the one of
    [<DATA_DIR>/ollama.db] to [<DATA_DIR>/webui.db], made on the files the
    run started with and with the source present, so it never ends in
    [FileNotFoundError]; and no run makes a second one. *)
Theorem X6_rename_guarded_by_the_check
    (env : Env) (cfg : Config) (fs : Files) (i : nat) (en : entry) :
  trace (final (bootstrap env cfg fs)) !! i = Some en ->
  is_rename (e_call en) = true ->
  i = 1
  /\ e_call en = os_rename_call (ollama_db cfg) (webui_db cfg)
  /\ e_files en = fs
  /\ is_Some (fs !! ollama_db cfg)
  /\ (forall path : string, e_result en ≠ Raises (FileNotFoundError path))
  /\ count is_rename (final (bootstrap env cfg fs)) = 1.
Proof.
  intros Hi Hrename. unfold count, calls. revert Hi.
  run_module; intros Hi.
  all: repeat (destruct i as [|i]; cbn in Hi; simplify_eq; try done).
  all: split_and!; try done; eauto.
  all: intros path [= ->].
  all: by eapply os_rename_error_of_existing.
Qed.

Lemma X6_rename_guarded_by_the_check_witness :
  count is_rename (final (bootstrap read_only sqlite_cfg legacy_only)) = 1.
Proof.
  refine (proj2 (proj2 (proj2 (proj2 (proj2 (X6_rename_guarded_by_the_check
    read_only sqlite_cfg legacy_only 1
    (mkEntry (os_rename_call "/tmp/app/ollama.db" "/tmp/app/webui.db") legacy_only
       (Raises (PermissionError "/tmp/app/ollama.db"))) _ _)))))).
  - by vm_compute.
  - reflexivity.
Defined.
